(** * The [auth.mast] integration notebook, embedded in Rocq

    The notebook [notebooks/integrating_auth_mast_service.ipynb] holds the
    code of a Django [views.py]: two decorators ([auth_info],
    [auth_required]) and three views ([authorize], [login], [logout]).

    The code is effectful: it reads the cookies of the inbound request,
    calls the provider over HTTP, calls into [authlib], and raises Python
    exceptions.  It is embedded as functions in a small monad [M] that
    threads the trace of calls leaving the process and carries either a
    returned value or a raised exception.  The collaborators that are not
    part of the notebook ([requests], [authlib], the JSON decoder) are the
    fields of a record [externals], over which every statement
    quantifies. *)

From Stdlib Require Import Ascii.
From stdpp Require Import gmap strings list fin_maps pretty.

Open Scope string_scope.

Set Warnings "-register-all".

(** ** Python values *)

(** The values a decoded JSON document is made of.  A [dict] is given by
    its items; subscripting returns the value of the first item with the
    key.  JSON numbers are restricted to integers. *)
Inductive pyval : Type :=
| PyNone
| PyBool (b : bool)
| PyInt (z : Z)
| PyStr (s : string)
| PyList (l : list pyval)
| PyDict (items : list (string * pyval)).

Inductive exn : Type :=
| NameError (name : string)
| KeyError (key : string)
| TypeError (msg : string)
| ValueError (msg : string)
| ExternalError (msg : string).

(** Truth value of an object, as tested by [if obj:]. *)
Definition py_truthy (v : pyval) : bool :=
  match v with
  | PyNone => false
  | PyBool b => b
  | PyInt z => negb (z =? 0)%Z
  | PyStr s => negb (String.eqb s "")
  | PyList l => match l with [] => false | _ => true end
  | PyDict items => match items with [] => false | _ => true end
  end.

Fixpoint dict_get (items : list (string * pyval)) (key : string) : option pyval :=
  match items with
  | [] => None
  | (k, v) :: rest => if String.eqb k key then Some v else dict_get rest key
  end.

(** ** Requests, responses, cookies *)

(** The inbound [HttpRequest]: the cookies sent by the browser and the
    query parameters. *)
Record HttpRequest : Type := mkRequest {
  COOKIES : gmap string string;
  GET : gmap string string
}.

(** One entry of [HttpResponse.cookies], as [set_cookie] fills it. *)
Record Morsel : Type := mkMorsel {
  value : string;
  max_age : option Z;
  expires : option string;
  path : string;
  domain : option string;
  secure : bool;
  httponly : bool
}.

Record HttpResponse : Type := mkResponse {
  status_code : Z;
  location : option string;
  content : string;
  cookies : gmap string Morsel
}.

(** What [requests.get] returns: the status line and the body, the body
    being represented by what [Response.json()] makes of it ([None] when
    the body is not a JSON document and [json()] raises). *)
Record Response : Type := mkProviderResponse {
  resp_status : Z;
  resp_json : option pyval
}.

Definition headers : Type := list (string * string).

(** ** Calls that leave the notebook's code *)

Inductive event : Type :=
| RequestsGet (url : string) (hdrs : headers)
| AuthorizeAccessToken (request : HttpRequest) (hdrs : headers)
| AuthorizeRedirect (request : HttpRequest) (redirect_uri : string)
| Render (request : HttpRequest) (template : string) (user : pyval).

(** An event is an outbound call when it sends something to the
    provider: the GET of [requests] and the token exchange of
    [authlib]. *)
Definition outbound (e : event) : bool :=
  match e with
  | RequestsGet _ _ | AuthorizeAccessToken _ _ => true
  | AuthorizeRedirect _ _ | Render _ _ _ => false
  end.

(** The collaborators.  Each one answers from the calls made so far and
    its arguments, and either returns or raises. *)
Record externals : Type := mkExternals {
  requests_get : list event -> string -> headers -> exn + Response;
  authorize_access_token : list event -> HttpRequest -> headers -> exn + pyval;
  authorize_redirect : list event -> HttpRequest -> string -> exn + HttpResponse;
  render : list event -> HttpRequest -> string -> pyval -> exn + HttpResponse;
  container_str : pyval -> string
}.

(** ** The monad: a trace of calls, and a result or an exception *)

Inductive outcome (A : Type) : Type :=
| Returned (a : A)
| Raised (e : exn).
Arguments Returned {A} a.
Arguments Raised {A} e.

Definition M (A : Type) : Type := list event -> outcome A * list event.

Definition ret {A} (a : A) : M A := fun w => (Returned a, w).

Definition raise {A} (e : exn) : M A := fun w => (Raised e, w).

Definition bind {A B} (m : M A) (k : A -> M B) : M B :=
  fun w => match m w with
           | (Returned a, w') => k a w'
           | (Raised e, w') => (Raised e, w')
           end.

Declare Scope py_scope.
Delimit Scope py_scope with py.
Notation "'let!' x := m 'in' k" := (bind m (fun x => k))
  (at level 10, x name, m at level 200, k at level 200) : py_scope.
Open Scope py_scope.

(** Perform an external call: log it, then return or raise what the
    collaborator answers. *)
Definition call {A} (e : event) (answer : list event -> exn + A) : M A :=
  fun w => match answer w with
           | inr a => (Returned a, (w ++ [e])%list)
           | inl x => (Raised x, (w ++ [e])%list)
           end.

(** ** Operations of the language and the libraries *)

(** [obj[key]] with a string key. *)
Definition py_getitem (obj : pyval) (key : string) : M pyval :=
  match obj with
  | PyDict items =>
      match dict_get items key with
      | Some v => ret v
      | None => raise (KeyError key)
      end
  | PyList _ => raise (TypeError "list indices must be integers or slices, not str")
  | PyStr _ => raise (TypeError "string indices must be integers")
  | PyNone => raise (TypeError "'NoneType' object is not subscriptable")
  | PyBool _ => raise (TypeError "'bool' object is not subscriptable")
  | PyInt _ => raise (TypeError "'int' object is not subscriptable")
  end.

(** [Response.json()]. *)
Definition json (response : Response) : M pyval :=
  match resp_json response with
  | Some v => ret v
  | None => raise (ValueError "Expecting value")
  end.

(** [os.path.join] of two components. *)
Fixpoint endswith_sep (s : string) : bool :=
  match s with
  | EmptyString => false
  | String c EmptyString => Ascii.eqb c "/"%char
  | String _ rest => endswith_sep rest
  end.

Definition startswith_sep (s : string) : bool :=
  match s with
  | String c _ => Ascii.eqb c "/"%char
  | EmptyString => false
  end.

Definition os_path_join (a b : string) : string :=
  if startswith_sep b then b
  else if String.eqb a "" || endswith_sep a then a ++ b
  else a ++ "/" ++ b.

(** [django.shortcuts.redirect] to a URL. *)
Definition redirect (to : string) : HttpResponse :=
  {| status_code := 302; location := Some to; content := ""; cookies := ∅ |}.

(** [HttpResponse.set_cookie(key, value, **cookie_args)]. *)
Definition set_cookie (response : HttpResponse) (key val : string)
    (max_age : option Z) (expires : option string)
    (domain : option string) (secure httponly : bool) : HttpResponse :=
  {| status_code := status_code response;
     location := location response;
     content := content response;
     cookies := <[ key := {| value := val; max_age := max_age; expires := expires;
                             path := "/"; domain := domain;
                             secure := secure; httponly := httponly |} ]>
                (cookies response) |}.

(** [HttpResponse.delete_cookie(key)]: the cookie is set again, empty and
    already expired. *)
Definition delete_cookie (response : HttpResponse) (key : string) : HttpResponse :=
  set_cookie response key "" (Some 0%Z) (Some "Thu, 01 Jan 1970 00:00:00 GMT")
             None false false.

(** [str(obj)], which [set_cookie] applies to the value it is given. *)
Definition py_str (E : externals) (v : pyval) : string :=
  match v with
  | PyNone => "None"
  | PyBool true => "True"
  | PyBool false => "False"
  | PyInt z => pretty z
  | PyStr s => s
  | PyList _ | PyDict _ => container_str E v
  end.

(** ** The notebook *)

(** Global parameters. *)
Definition client_id : string := "".
Definition client_secret : string := "".
Definition auth_mast : string := "auth.mast.stsci.edu".
Definition base_url : string := "https://myapp.stsci.edu".

(** The names bound at module level once the cells of [views.py] have
    run: the imports, the global parameters, and the functions. *)
Definition views_names : list string :=
  [ "requests"; "OAuth"; "redirect"; "render"; "path";
    "client_id"; "client_secret"; "auth_mast"; "base_url";
    "register_oauth"; "MY_APP_OAUTH"; "auth_info"; "auth_required";
    "authorize"; "login"; "logout"; "some_webpage" ].

(** Evaluating a global name. *)
Definition load_name (names : list string) (name : string) : M unit :=
  if existsb (String.eqb name) names then ret tt
  else raise (NameError name).

(** What [register_oauth] registers under ['mast_auth']. *)
Record registration : Type := mkRegistration {
  reg_client_id : string;
  reg_client_secret : string;
  access_token_url : string;
  authorize_url : string;
  api_base_url : string;
  scope : string
}.

Definition register_oauth : registration :=
  {| reg_client_id := client_id;
     reg_client_secret := client_secret;
     access_token_url :=
       "https://" ++ auth_mast ++ "/oauth/access_token?client_secret=" ++ client_secret;
     authorize_url := "https://" ++ auth_mast ++ "/oauth/authorize";
     api_base_url := "https://" ++ auth_mast ++ "/1.1/";
     scope := "mast:user:info" |}.

Definition MY_APP_OAUTH : registration := register_oauth.

(** The keyword arguments a view is called with. *)
Abbreviation kwargs := (gmap string pyval).

Section Views.

Variable E : externals.

(** *** [auth_info] *)

(** The value the [if]/[else] of [user_info] binds to [response]. *)
Definition user_info_response (request : HttpRequest) : M pyval :=
  match COOKIES request !! "ASB-AUTH" with
  | Some cookie =>
      let url := "https://" ++ auth_mast ++ "/info" in
      let hdrs := [("Accept", "application/json");
                   ("Authorization", "token " ++ cookie)] in
      let! response := call (RequestsGet url hdrs) (fun w => requests_get E w url hdrs) in
      json response
  | None =>
      ret (PyDict [("ezid", PyNone); ("anon", PyBool true)])
  end.

(** [kw] stands for keyword arguments that [user_info(request, **kwargs)]
    accepts, that is, none named ['request']: Python refuses such a call
    before the body runs. *)
Definition auth_info (fn : HttpRequest -> pyval -> kwargs -> M HttpResponse)
    : HttpRequest -> kwargs -> M HttpResponse :=
  fun request kw =>
    let! response := user_info_response request in
    fn request response kw.

(** *** [auth_required] *)

Definition check_auth (names : list string)
    (fn : HttpRequest -> pyval -> M HttpResponse)
    (request : HttpRequest) (user : pyval) : M HttpResponse :=
  let! anon := py_getitem user "anon" in
  if py_truthy anon then
    let! _ := load_name names "os" in
    let redirect_uri := os_path_join base_url "authorize" in
    call (AuthorizeRedirect request redirect_uri)
         (fun w => authorize_redirect E w request redirect_uri)
  else
    fn request user.

(** [check_auth] takes [request] and [user] only: a keyword argument
    passed on by [user_info] is refused when the call is made. *)
Definition auth_required_in (names : list string)
    (fn : HttpRequest -> pyval -> M HttpResponse)
    : HttpRequest -> kwargs -> M HttpResponse :=
  auth_info (fun request user kw =>
    match map_to_list kw with
    | [] => check_auth names fn request user
    | (k, _) :: _ =>
        raise (TypeError ("check_auth() got an unexpected keyword argument '"
                          ++ k ++ "'"))
    end).

Definition auth_required := auth_required_in views_names.

(** *** The views *)

Definition authorize (request : HttpRequest) : M HttpResponse :=
  let hdrs := [("Accept", "application/json")] in
  let! token := call (AuthorizeAccessToken request hdrs)
                (fun w => authorize_access_token E w request hdrs) in
  let response := redirect "/" in
  let! access_token := py_getitem token "access_token" in
  ret (set_cookie response "ASB-AUTH" (py_str E access_token)
                  None None (Some "myapp.stsci.edu") true true).

Definition login_view (request : HttpRequest) (user : pyval) : M HttpResponse :=
  ret (redirect "/").

Definition login : HttpRequest -> kwargs -> M HttpResponse :=
  auth_required login_view.

Definition logout (request : HttpRequest) : M HttpResponse :=
  let response := redirect "/" in
  ret (delete_cookie response "ASB-AUTH").

Definition some_webpage : HttpRequest -> kwargs -> M HttpResponse :=
  auth_info (fun request user kw =>
    match map_to_list kw with
    | [] =>
        let template := "some_webpage.html" in
        call (Render request template user)
             (fun w => render E w request template user)
    | (k, _) :: _ =>
        raise (TypeError ("some_webpage() got an unexpected keyword argument '"
                          ++ k ++ "'"))
    end).

End Views.

(** ** Vocabulary of the statements *)

(** The record [user_info] uses when the request has no session cookie. *)
Definition anonymous_user : pyval :=
  PyDict [("ezid", PyNone); ("anon", PyBool true)].

(** The GET [user_info] sends to the provider for a cookie value. *)
Definition info_call (cookie : string) : event :=
  RequestsGet "https://auth.mast.stsci.edu/info"
              [("Accept", "application/json"); ("Authorization", "token " ++ cookie)].

(** What the provider answers to that GET after the calls [w]. *)
Definition info_answer (E : externals) (w : list event) (cookie : string)
    : exn + Response :=
  requests_get E w "https://auth.mast.stsci.edu/info"
               [("Accept", "application/json"); ("Authorization", "token " ++ cookie)].

(** The ['anon'] entry of an identity record, when it is a [dict] that
    has one. *)
Definition anon_of (user : pyval) : option pyval :=
  match user with
  | PyDict items => dict_get items "anon"
  | _ => None
  end.

(** A caller is anonymous when identity resolution returns a record
    whose ['anon'] entry is true for [if user["anon"]:]. *)
Definition is_anonymous (resolved : outcome pyval) : bool :=
  match resolved with
  | Returned user =>
      match anon_of user with
      | Some v => py_truthy v
      | None => false
      end
  | Raised _ => false
  end.

(** The provider rejects a credential when it answers the GET with a
    status outside 2xx, or does not answer at all. *)
Definition provider_rejects (answer : exn + Response) : bool :=
  match answer with
  | inr r => negb ((200 <=? resp_status r)%Z && (resp_status r <? 300)%Z)
  | inl _ => true
  end.

(** The record the provider's answer decodes to, if any. *)
Definition answered_record (answer : exn + Response) : option pyval :=
  match answer with
  | inr r => resp_json r
  | inl _ => None
  end.

(** The ['access_token'] entry of the token [authlib] returns. *)
Definition access_token_of (token : pyval) : option pyval :=
  match token with
  | PyDict items => dict_get items "access_token"
  | _ => None
  end.

(** The invariant in the words of the specification: the caller is
    anonymous exactly when the request has no session credential or the
    provider rejects the one presented. *)
Definition anonymous_iff_absent_or_rejected
    (E : externals) (request : HttpRequest) (w : list event) : Prop :=
  is_anonymous (fst (user_info_response E request w)) = true <->
  (COOKIES request !! "ASB-AUTH" = None
   \/ exists cookie, COOKIES request !! "ASB-AUTH" = Some cookie
                     /\ provider_rejects (info_answer E w cookie) = true).

(** The invariant the code has: the caller is anonymous exactly when the
    request has no session credential or the record the provider's
    answer decodes to has a true ['anon'] entry. *)
Definition anonymous_iff_absent_or_flagged
    (E : externals) (request : HttpRequest) (w : list event) : Prop :=
  is_anonymous (fst (user_info_response E request w)) = true <->
  (COOKIES request !! "ASB-AUTH" = None
   \/ exists cookie user v,
        COOKIES request !! "ASB-AUTH" = Some cookie
        /\ answered_record (info_answer E w cookie) = Some user
        /\ anon_of user = Some v /\ py_truthy v = true).

(** The cookies of the response a view returned, if it returned one. *)
Definition response_cookies (r : outcome HttpResponse * list event)
    : option (gmap string Morsel) :=
  match fst r with
  | Returned response => Some (cookies response)
  | Raised _ => None
  end.

(** The calls a computation added to the trace [w]. *)
Definition added (w w' : list event) : list event := drop (length w) w'.

(** ** Example environments *)

Module Examples.

Definition authorization (hdrs : headers) : string :=
  match hdrs with
  | [_; (_, v)] => v
  | _ => ""
  end.

(** A provider that knows one token, answers everything else with the
    anonymous record, and answers ["token expired"] with a 401 page. *)
Definition info (hdrs : headers) : exn + Response :=
  if String.eqb (authorization hdrs) "token s3cr3t" then
    inr {| resp_status := 200;
           resp_json := Some (PyDict [("ezid", PyStr "jdoe"); ("anon", PyBool false)]) |}
  else if String.eqb (authorization hdrs) "token expired" then
    inr {| resp_status := 401; resp_json := None |}
  else if String.eqb (authorization hdrs) "token odd" then
    inr {| resp_status := 200; resp_json := Some (PyDict [("ezid", PyStr "jdoe")]) |}
  else
    inr {| resp_status := 200;
           resp_json := Some (PyDict [("ezid", PyNone); ("anon", PyBool true)]) |}.

Definition mast : externals :=
  {| requests_get := fun _ _ hdrs => info hdrs;
     authorize_access_token := fun _ _ _ =>
       inr (PyDict [("access_token", PyStr "s3cr3t"); ("token_type", PyStr "bearer")]);
     authorize_redirect := fun _ _ uri =>
       inr (redirect (authorize_url MY_APP_OAUTH ++ "?redirect_uri=" ++ uri));
     render := fun _ _ template _ =>
       inr {| status_code := 200; location := None; content := template; cookies := ∅ |};
     container_str := fun _ => "" |}.

Definition visitor : HttpRequest := {| COOKIES := ∅; GET := ∅ |}.

Definition with_cookie (v : string) : HttpRequest :=
  {| COOKIES := {[ "ASB-AUTH" := v ]}; GET := ∅ |}.

Definition member : HttpRequest := with_cookie "s3cr3t".

Definition home (request : HttpRequest) (user : pyval) : M HttpResponse :=
  ret {| status_code := 200; location := None; content := "home"; cookies := ∅ |}.

Definition home_kw (request : HttpRequest) (user : pyval) (kw : kwargs)
    : M HttpResponse :=
  home request user.

End Examples.

(** Further environments: an unreachable provider, and one whose records
    carry an ['anon'] that is not a boolean. *)
Module Cases.

Definition down : externals :=
  {| requests_get := fun _ _ _ => inl (ExternalError "ConnectionError");
     authorize_access_token := fun _ _ _ => inl (ExternalError "mismatching_state");
     authorize_redirect := fun _ _ _ => inl (ExternalError "ConnectionError");
     render := fun _ _ _ _ => inl (ExternalError "TemplateDoesNotExist");
     container_str := fun _ => "" |}.

Definition loose : externals :=
  {| requests_get := fun _ _ _ =>
       inr {| resp_status := 200;
              resp_json := Some (PyDict [("ezid", PyStr "jdoe"); ("anon", PyNone)]) |};
     authorize_access_token := fun _ _ _ =>
       inr (PyDict [("access_token", PyNone)]);
     authorize_redirect := fun _ _ uri => inr (redirect uri);
     render := fun _ _ template _ =>
       inr {| status_code := 200; location := None; content := template; cookies := ∅ |};
     container_str := fun _ => "" |}.

(** The same provider as [Examples.mast], answering 403 throughout. *)
Definition forbidding : externals :=
  {| requests_get := fun w url hdrs =>
       match Examples.info hdrs with
       | inr r => inr {| resp_status := 403; resp_json := resp_json r |}
       | inl x => inl x
       end;
     authorize_access_token := authorize_access_token Examples.mast;
     authorize_redirect := authorize_redirect Examples.mast;
     render := render Examples.mast;
     container_str := container_str Examples.mast |}.

Definition busy_member : HttpRequest :=
  {| COOKIES := {[ "ASB-AUTH" := "s3cr3t"; "csrftoken" := "x" ]};
     GET := {[ "page" := "2" ]} |}.

End Cases.

(** ** The browser's cookie store *)

(** The cookies a browser holds for the application's host.  Browsers
    tell cookies apart by name, domain and path, a cookie set without a
    [Domain] attribute being a different cookie from one set with it;
    this is why the documentation of [delete_cookie] asks for the path
    and domain that were given to [set_cookie]. *)
Record stored : Type := mkStored {
  c_name : string;
  c_domain : option string;
  c_path : string;
  c_value : string
}.

Definition domain_eqb (a b : option string) : bool :=
  match a, b with
  | Some x, Some y => String.eqb x y
  | None, None => true
  | _, _ => false
  end.

Definition same_cookie (name : string) (m : Morsel) (c : stored) : bool :=
  String.eqb (c_name c) name
  && domain_eqb (c_domain c) (domain m)
  && String.eqb (c_path c) (path m).

(** [Max-Age], which takes precedence over [Expires], is zero or less. *)
Definition expired (m : Morsel) : bool :=
  match max_age m with
  | Some a => (a <=? 0)%Z
  | None => false
  end.

(** One [Set-Cookie] header: the cookie it names is dropped from the
    store, and stored again unless the header expires it. *)
Definition store (jar : list stored) (entry : string * Morsel) : list stored :=
  let kept := List.filter (fun c => negb (same_cookie (fst entry) (snd entry) c)) jar in
  if expired (snd entry) then kept
  else (kept ++ [ {| c_name := fst entry; c_domain := domain (snd entry);
                     c_path := path (snd entry); c_value := value (snd entry) |} ])%list.

Definition receive (jar : list stored) (response : HttpResponse) : list stored :=
  foldl store jar (map_to_list (cookies response)).

(** The [COOKIES] of the next request to the application. *)
Definition sent (jar : list stored) : gmap string string :=
  list_to_map (List.map (fun c => (c_name c, c_value c)) jar).

(** ** Identity resolution *)

Section Resolution.

Variable E : externals.

Lemma resolve_without_cookie request w :
  COOKIES request !! "ASB-AUTH" = None ->
  user_info_response E request w = (Returned anonymous_user, w).
Proof.
  intros Hnone. unfold user_info_response. now rewrite Hnone.
Qed.

Lemma resolve_with_cookie request cookie w :
  COOKIES request !! "ASB-AUTH" = Some cookie ->
  user_info_response E request w =
    (match info_answer E w cookie with
     | inr r => match resp_json r with
                | Some user => Returned user
                | None => Raised (ValueError "Expecting value")
                end
     | inl x => Raised x
     end, (w ++ [info_call cookie])%list).
Proof.
  intros Hsome. unfold user_info_response, info_answer, info_call.
  rewrite Hsome. cbn. unfold bind, call, json.
  destruct (requests_get E w _ _) as [x | r]; [reflexivity |].
  now destruct (resp_json r).
Qed.

Lemma resolve_with_cookie_record request cookie w r user :
  COOKIES request !! "ASB-AUTH" = Some cookie ->
  info_answer E w cookie = inr r ->
  resp_json r = Some user ->
  user_info_response E request w = (Returned user, (w ++ [info_call cookie])%list).
Proof.
  intros Hsome Hans Hjson.
  rewrite (resolve_with_cookie _ _ _ Hsome), Hans, Hjson. reflexivity.
Qed.

Lemma auth_info_unfold fn request kw w :
  auth_info E fn request kw w =
    match user_info_response E request w with
    | (Returned user, w') => fn request user kw w'
    | (Raised e, w') => (Raised e, w')
    end.
Proof. reflexivity. Qed.

Lemma getitem_anon user v w :
  anon_of user = Some v -> py_getitem user "anon" w = (Returned v, w).
Proof.
  destruct user; cbn; try discriminate. now intros ->.
Qed.

Lemma getitem_anon_missing user w :
  anon_of user = None -> exists e, py_getitem user "anon" w = (Raised e, w).
Proof.
  destruct user; cbn; intros H; try (eexists; reflexivity).
  rewrite H. eexists; reflexivity.
Qed.

End Resolution.

(** C1. When the cookies of the request have no ['ASB-AUTH'] entry, the
    wrapper made by [auth_info] resolves the caller to the anonymous
    record, whose ['anon'] entry is [True], and calls the wrapped function
    on a trace to which nothing was added: no call left the process before
    the wrapped function runs. *)
Theorem auth_info_no_cookie_is_anonymous
    (E : externals) (fn : HttpRequest -> pyval -> kwargs -> M HttpResponse)
    (request : HttpRequest) (kw : kwargs) (w : list event) :
  COOKIES request !! "ASB-AUTH" = None ->
  user_info_response E request w = (Returned anonymous_user, w)
  /\ anon_of anonymous_user = Some (PyBool true)
  /\ auth_info E fn request kw w = fn request anonymous_user kw w.
Proof.
  intros Hnone. split; [| split].
  - now apply resolve_without_cookie.
  - reflexivity.
  - rewrite auth_info_unfold, (resolve_without_cookie E _ w Hnone). reflexivity.
Qed.

Lemma auth_info_no_cookie_is_anonymous_witness :
  COOKIES Examples.visitor !! "ASB-AUTH" = None
  /\ auth_info Examples.mast Examples.home_kw Examples.visitor ∅ []
     = Examples.home_kw Examples.visitor anonymous_user ∅ [].
Proof.
  split; [reflexivity |].
  apply (auth_info_no_cookie_is_anonymous
           Examples.mast Examples.home_kw Examples.visitor ∅ []).
  reflexivity.
Defined.

(** C2. When the cookies of the request have an ['ASB-AUTH'] entry, the
    wrapper made by [auth_info] adds exactly one call to the trace, the
    GET of the provider's [/info] with the cookie's value in the
    [Authorization] header, and, the answer being a JSON document, passes
    the decoded record to the wrapped function as the identity. *)
Theorem auth_info_cookie_one_info_call
    (E : externals) (fn : HttpRequest -> pyval -> kwargs -> M HttpResponse)
    (request : HttpRequest) (kw : kwargs) (w : list event) (cookie : string) :
  COOKIES request !! "ASB-AUTH" = Some cookie ->
  snd (user_info_response E request w)
    = app w [RequestsGet ("https://" ++ auth_mast ++ "/info")
                         [("Accept", "application/json");
                          ("Authorization", "token " ++ cookie)]]
  /\ (forall r user,
        info_answer E w cookie = inr r ->
        resp_json r = Some user ->
        auth_info E fn request kw w
          = fn request user kw (w ++ [info_call cookie])%list).
Proof.
  intros Hsome. split.
  - rewrite (resolve_with_cookie E _ _ w Hsome). reflexivity.
  - intros r user Hans Hjson.
    rewrite auth_info_unfold,
      (resolve_with_cookie_record E _ _ w _ _ Hsome Hans Hjson).
    reflexivity.
Qed.

Lemma auth_info_cookie_one_info_call_witness :
  COOKIES Examples.member !! "ASB-AUTH" = Some "s3cr3t"
  /\ snd (user_info_response Examples.mast Examples.member [])
     = [info_call "s3cr3t"]
  /\ auth_info Examples.mast Examples.home_kw Examples.member ∅ []
     = Examples.home_kw Examples.member
         (PyDict [("ezid", PyStr "jdoe"); ("anon", PyBool false)]) ∅
         [info_call "s3cr3t"].
Proof.
  assert (Hc : COOKIES Examples.member !! "ASB-AUTH" = Some "s3cr3t")
    by reflexivity.
  destruct (auth_info_cookie_one_info_call
              Examples.mast Examples.home_kw Examples.member ∅ [] "s3cr3t" Hc)
    as [Htrace Hpass].
  split; [exact Hc |]. split; [exact Htrace |].
  apply (Hpass {| resp_status := 200;
                  resp_json := Some (PyDict [("ezid", PyStr "jdoe");
                                             ("anon", PyBool false)]) |});
    reflexivity.
Defined.

(** ** The login gate *)

Section Gate.

Variable E : externals.

Lemma auth_required_in_unfold names fn request w :
  auth_required_in E names fn request ∅ w =
    match user_info_response E request w with
    | (Returned user, w') => check_auth E names fn request user w'
    | (Raised e, w') => (Raised e, w')
    end.
Proof.
  unfold auth_required_in. rewrite auth_info_unfold.
  destruct (user_info_response E request w) as [[user | e] w']; [| reflexivity].
  now rewrite map_to_list_empty.
Qed.

Lemma check_auth_falsy names fn request user v w :
  anon_of user = Some v -> py_truthy v = false ->
  check_auth E names fn request user w = fn request user w.
Proof.
  intros Hanon Hv. unfold check_auth, bind.
  rewrite (getitem_anon _ _ w Hanon), Hv. reflexivity.
Qed.

Lemma check_auth_truthy names fn request user v w :
  anon_of user = Some v -> py_truthy v = true ->
  check_auth E names fn request user w =
    if existsb (String.eqb "os") names then
      call (AuthorizeRedirect request "https://myapp.stsci.edu/authorize")
           (fun w0 => authorize_redirect E w0 request
                        "https://myapp.stsci.edu/authorize") w
    else (Raised (NameError "os"), w).
Proof.
  intros Hanon Hv. unfold check_auth, bind, load_name.
  rewrite (getitem_anon _ _ w Hanon), Hv.
  now destruct (existsb (String.eqb "os") names).
Qed.

Lemma check_auth_no_anon names fn request user w :
  anon_of user = None ->
  exists e, py_getitem user "anon" w = (Raised e, w)
            /\ check_auth E names fn request user w = (Raised e, w).
Proof.
  intros Hanon. destruct (getitem_anon_missing user w Hanon) as [e He].
  exists e. split; [exact He |]. unfold check_auth, bind. now rewrite He.
Qed.

(** Had [os] been imported, an anonymous caller would be handed to
    [authorize_redirect] with the callback URL made of [base_url] and
    ['authorize'], and the handler would not run. *)
Lemma check_auth_with_os_redirects fn request user v w :
  anon_of user = Some v -> py_truthy v = true ->
  check_auth E ("os" :: views_names) fn request user w =
    (match authorize_redirect E w request (base_url ++ "/authorize") with
     | inr response => Returned response
     | inl x => Raised x
     end,
     app w [AuthorizeRedirect request (base_url ++ "/authorize")]).
Proof.
  intros Hanon Hv. rewrite (check_auth_truthy _ _ _ _ _ w Hanon Hv).
  cbn. unfold call.
  now destruct (authorize_redirect E w request _).
Qed.

(** With the names [views.py] binds, every anonymous caller ends in a
    [NameError], whatever the handler. *)
Lemma auth_required_anonymous_raises fn request w user v w' :
  user_info_response E request w = (Returned user, w') ->
  anon_of user = Some v -> py_truthy v = true ->
  auth_required E fn request ∅ w = (Raised (NameError "os"), w').
Proof.
  intros Hres Hanon Hv. unfold auth_required.
  rewrite auth_required_in_unfold, Hres.
  now rewrite (check_auth_truthy _ _ _ _ _ w' Hanon Hv).
Qed.

Lemma auth_required_falsy fn request w user v w' :
  user_info_response E request w = (Returned user, w') ->
  anon_of user = Some v -> py_truthy v = false ->
  auth_required E fn request ∅ w = fn request user w'.
Proof.
  intros Hres Hanon Hv. unfold auth_required.
  rewrite auth_required_in_unfold, Hres.
  now apply check_auth_falsy with (v := v).
Qed.

(** A keyword argument reaching the gate is refused once the identity
    is resolved. *)
Lemma auth_required_kwargs fn request (kw : kwargs) w user w' :
  kw <> ∅ ->
  kw !! "request" = None ->
  user_info_response E request w = (Returned user, w') ->
  exists msg, auth_required E fn request kw w = (Raised (TypeError msg), w').
Proof.
  intros Hkw _ Hres. unfold auth_required, auth_required_in.
  rewrite auth_info_unfold, Hres.
  destruct (map_to_list kw) as [| [k x] rest] eqn:Hl.
  - apply map_to_list_empty_iff in Hl. contradiction.
  - eexists. reflexivity.
Qed.

End Gate.

(** C3. A request without session cookie resolves to a record whose
    ['anon'] is [True]; the gate made by [auth_required] then evaluates
    [os.path.join], and [os] is not a name of the module: the gate raises
    [NameError] instead of returning the redirect to the provider.  The
    wrapped handler is not called: the result is the same for every
    handler. *)
Theorem auth_required_anonymous_name_error
    (E : externals) (fn : HttpRequest -> pyval -> M HttpResponse)
    (w : list event) :
  auth_required E fn Examples.visitor ∅ w = (Raised (NameError "os"), w).
Proof.
  apply auth_required_anonymous_raises
    with (user := anonymous_user) (v := PyBool true); [| reflexivity ..].
  now apply resolve_without_cookie.
Qed.

(** C4. When the resolved identity record has ['anon'] equal to [False],
    the gate made by [auth_required] calls the wrapped handler with the
    request and that record, on the trace identity resolution left, and
    its result is the handler's. *)
Theorem auth_required_authenticated_calls_handler
    (E : externals) (fn : HttpRequest -> pyval -> M HttpResponse)
    (request : HttpRequest) (w w' : list event) (user : pyval) :
  user_info_response E request w = (Returned user, w') ->
  anon_of user = Some (PyBool false) ->
  auth_required E fn request ∅ w = fn request user w'.
Proof.
  intros Hres Hanon.
  now apply auth_required_falsy with (v := PyBool false).
Qed.

Lemma auth_required_authenticated_calls_handler_witness :
  auth_required Examples.mast Examples.home Examples.member ∅ []
  = Examples.home Examples.member
      (PyDict [("ezid", PyStr "jdoe"); ("anon", PyBool false)])
      [info_call "s3cr3t"].
Proof.
  apply (auth_required_authenticated_calls_handler
           Examples.mast Examples.home Examples.member [] [info_call "s3cr3t"]);
    reflexivity.
Defined.

(** C9. For a request that carries an ['ASB-AUTH'] cookie, when the
    provider's answer is not a JSON document, or decodes to something
    that is not a [dict] with an ['anon'] key, the gate made by
    [auth_required] raises ([ValueError], [TypeError] or
    [KeyError('anon')]) after the one GET; it neither redirects to the
    login nor calls the handler. *)
Theorem auth_required_missing_anon_raises
    (E : externals) (request : HttpRequest) (w : list event)
    (cookie : string) (r : Response) :
  COOKIES request !! "ASB-AUTH" = Some cookie ->
  info_answer E w cookie = inr r ->
  (resp_json r = None
   \/ exists user, resp_json r = Some user /\ anon_of user = None) ->
  exists e,
    (e = ValueError "Expecting value" \/ e = KeyError "anon"
     \/ exists msg, e = TypeError msg)
    /\ forall fn,
         auth_required E fn request ∅ w = (Raised e, app w [info_call cookie]).
Proof.
  intros Hsome Hans [Hjson | (user & Hjson & Hanon)].
  - exists (ValueError "Expecting value"). split; [now left |].
    intros fn. unfold auth_required.
    rewrite auth_required_in_unfold, (resolve_with_cookie E _ _ w Hsome).
    now rewrite Hans, Hjson.
  - assert (Hshape : exists e,
               (e = KeyError "anon" \/ exists msg, e = TypeError msg)
               /\ forall w0, py_getitem user "anon" w0 = (Raised e, w0)).
    { destruct user; cbn in Hanon |- *;
        try (eexists; split; [right; eexists; reflexivity | reflexivity]).
      rewrite Hanon. eexists; split; [now left | reflexivity]. }
    destruct Hshape as (e & Hkind & Hget).
    exists e. split; [tauto |].
    intros fn. unfold auth_required.
    rewrite auth_required_in_unfold,
      (resolve_with_cookie_record E _ _ w _ _ Hsome Hans Hjson).
    unfold check_auth, bind. now rewrite Hget.
Qed.

Lemma auth_required_missing_anon_raises_witness :
  exists e, forall fn,
    auth_required Examples.mast fn (Examples.with_cookie "odd") ∅ []
    = (Raised e, [info_call "odd"]).
Proof.
  destruct (auth_required_missing_anon_raises
              Examples.mast (Examples.with_cookie "odd") [] "odd"
              {| resp_status := 200;
                 resp_json := Some (PyDict [("ezid", PyStr "jdoe")]) |})
    as (e & _ & He).
  - reflexivity.
  - reflexivity.
  - right. eexists. split; reflexivity.
  - exists e. exact He.
Defined.

(** C10. For an authenticated caller (resolved record with ['anon'] equal
    to [False]) the [/login] view returns the redirect to ["/"]; its body
    returns that redirect for every request and every identity record,
    adding nothing to the trace. *)
Theorem login_authenticated_redirects_home
    (E : externals) (request : HttpRequest) (w w' : list event) (user : pyval) :
  user_info_response E request w = (Returned user, w') ->
  anon_of user = Some (PyBool false) ->
  login E request ∅ w = (Returned (redirect "/"), w')
  /\ location (redirect "/") = Some "/"
  /\ forall request0 user0 w0,
       login_view request0 user0 w0 = (Returned (redirect "/"), w0).
Proof.
  intros Hres Hanon. split; [| split; reflexivity].
  unfold login.
  now rewrite (auth_required_falsy E _ _ w _ (PyBool false) w' Hres Hanon).
Qed.

Lemma login_authenticated_redirects_home_witness :
  login Examples.mast Examples.member ∅ []
  = (Returned (redirect "/"), [info_call "s3cr3t"]).
Proof.
  apply (login_authenticated_redirects_home
           Examples.mast Examples.member [] [info_call "s3cr3t"]
           (PyDict [("ezid", PyStr "jdoe"); ("anon", PyBool false)]));
    reflexivity.
Defined.

(** ** The callback and the logout *)

(** C5. When the token exchange returns a token whose ['access_token']
    is a string, [authorize] returns the redirect to ["/"] carrying one
    cookie, ['ASB-AUTH'], whose value is that string, with [secure] and
    [httponly] both true, the domain ['myapp.stsci.edu'], the path ["/"]
    and neither [max_age] nor [expires]: a session cookie that is set,
    not expired.  The exchange is the only call made. *)
Theorem authorize_sets_session_cookie
    (E : externals) (request : HttpRequest) (w : list event)
    (token : pyval) (access_token : string) :
  authorize_access_token E w request [("Accept", "application/json")] = inr token ->
  access_token_of token = Some (PyStr access_token) ->
  authorize E request w
  = (Returned
       {| status_code := 302;
          location := Some "/";
          content := "";
          cookies := {[ "ASB-AUTH" :=
                        {| value := access_token;
                           max_age := None;
                           expires := None;
                           path := "/";
                           domain := Some "myapp.stsci.edu";
                           secure := true;
                           httponly := true |} ]} |},
     app w [AuthorizeAccessToken request [("Accept", "application/json")]]).
Proof.
  intros Hexchange Htoken.
  unfold authorize, bind, call. rewrite Hexchange.
  destruct token; cbn in Htoken; try discriminate.
  cbn. rewrite Htoken. cbn.
  unfold set_cookie, redirect. cbn. now rewrite insert_empty.
Qed.

Lemma authorize_sets_session_cookie_witness :
  authorize Examples.mast Examples.visitor []
  = (Returned
       {| status_code := 302;
          location := Some "/";
          content := "";
          cookies := {[ "ASB-AUTH" :=
                        {| value := "s3cr3t";
                           max_age := None;
                           expires := None;
                           path := "/";
                           domain := Some "myapp.stsci.edu";
                           secure := true;
                           httponly := true |} ]} |},
     [AuthorizeAccessToken Examples.visitor [("Accept", "application/json")]]).
Proof.
  apply (authorize_sets_session_cookie
           Examples.mast Examples.visitor []
           (PyDict [("access_token", PyStr "s3cr3t");
                    ("token_type", PyStr "bearer")])
           "s3cr3t" eq_refl eq_refl).
Defined.

(** What [logout] returns, for every request: the redirect to ["/"] with
    one entry in its cookies, which expires ['ASB-AUTH'] at path ["/"]
    and names no domain.  Nothing is added to the trace. *)
Lemma logout_response (request : HttpRequest) (w : list event) :
  logout request w
  = (Returned
       {| status_code := 302;
          location := Some "/";
          content := "";
          cookies := {[ "ASB-AUTH" :=
                        {| value := "";
                           max_age := Some 0%Z;
                           expires := Some "Thu, 01 Jan 1970 00:00:00 GMT";
                           path := "/";
                           domain := None;
                           secure := false;
                           httponly := false |} ]} |},
     w).
Proof.
  unfold logout, ret, delete_cookie, set_cookie, redirect. cbn.
  now rewrite insert_empty.
Qed.

(** Expiring the cookie under the domain it was set with removes it from
    the store: the store does honour a deletion that names the cookie. *)
Lemma deletion_with_domain_removes (s : string) :
  sent (receive
          (receive [] (set_cookie (redirect "/") "ASB-AUTH" s
                                  None None (Some "myapp.stsci.edu") true true))
          (set_cookie (redirect "/") "ASB-AUTH" ""
                      (Some 0%Z) (Some "Thu, 01 Jan 1970 00:00:00 GMT")
                      (Some "myapp.stsci.edu") false false))
    !! "ASB-AUTH" = None.
Proof.
  unfold receive, set_cookie, redirect. cbn.
  rewrite !insert_empty, !map_to_list_singleton. reflexivity.
Qed.

(** C6. [logout] returns the redirect to ["/"] and makes no call, but
    the cookie it expires is not the one [authorize] set: [authorize]
    sets ['ASB-AUTH'] with the domain ['myapp.stsci.edu'] and [logout]
    expires ['ASB-AUTH'] without a domain.  A browser that received the
    cookie from [authorize] still holds it after the response of
    [logout], sends it with the next request, and identity resolution
    presents it to the provider again instead of resolving to the
    anonymous record. *)
Theorem logout_leaves_the_session_cookie
    (E : externals) (request : HttpRequest) (w : list event)
    (token : pyval) (s : string) (leaving : HttpRequest) (w0 : list event) :
  authorize_access_token E w request [("Accept", "application/json")] = inr token ->
  access_token_of token = Some (PyStr s) ->
  exists logged_in logged_out,
    fst (authorize E request w) = Returned logged_in
    /\ logout leaving w0 = (Returned logged_out, w0)
    /\ location logged_out = Some "/"
    /\ sent (receive [] logged_in) !! "ASB-AUTH" = Some s
    /\ sent (receive (receive [] logged_in) logged_out) !! "ASB-AUTH" = Some s
    /\ forall E' next w1,
         COOKIES next = sent (receive (receive [] logged_in) logged_out) ->
         user_info_response E' next w1
         = (match info_answer E' w1 s with
            | inr r => match resp_json r with
                       | Some user => Returned user
                       | None => Raised (ValueError "Expecting value")
                       end
            | inl x => Raised x
            end, app w1 [info_call s]).
Proof.
  intros Hexchange Htoken.
  assert (Hin : authorize E request w
                = (Returned (set_cookie (redirect "/") "ASB-AUTH" s
                               None None (Some "myapp.stsci.edu") true true),
                   app w [AuthorizeAccessToken request
                            [("Accept", "application/json")]])).
  { unfold authorize, bind, call. rewrite Hexchange.
    destruct token; cbn in Htoken; try discriminate.
    cbn. now rewrite Htoken. }
  assert (Hkept : sent (receive
                          (receive [] (set_cookie (redirect "/") "ASB-AUTH" s
                                         None None (Some "myapp.stsci.edu")
                                         true true))
                          (delete_cookie (redirect "/") "ASB-AUTH"))
                    !! "ASB-AUTH" = Some s).
  { unfold receive, delete_cookie, set_cookie, redirect. cbn.
    rewrite !insert_empty, !map_to_list_singleton. cbn.
    apply lookup_insert_eq. }
  exists (set_cookie (redirect "/") "ASB-AUTH" s
                     None None (Some "myapp.stsci.edu") true true),
         (delete_cookie (redirect "/") "ASB-AUTH").
  split; [now rewrite Hin |]. split; [reflexivity |]. split; [reflexivity |].
  split.
  - unfold receive, set_cookie, redirect. cbn.
    rewrite insert_empty, map_to_list_singleton. cbn.
    apply lookup_insert_eq.
  - split; [exact Hkept |].
    intros E' next w1 Hnext.
    apply resolve_with_cookie. rewrite Hnext. exact Hkept.
Qed.

Lemma logout_leaves_the_session_cookie_witness :
  exists logged_in logged_out,
    fst (authorize Examples.mast Examples.visitor []) = Returned logged_in
    /\ logout Examples.member [] = (Returned logged_out, [])
    /\ sent (receive (receive [] logged_in) logged_out) !! "ASB-AUTH"
       = Some "s3cr3t"
    /\ user_info_response Examples.mast
         {| COOKIES := sent (receive (receive [] logged_in) logged_out);
            GET := ∅ |} []
       = (Returned (PyDict [("ezid", PyStr "jdoe"); ("anon", PyBool false)]),
          [info_call "s3cr3t"]).
Proof.
  destruct (logout_leaves_the_session_cookie
              Examples.mast Examples.visitor []
              (PyDict [("access_token", PyStr "s3cr3t");
                       ("token_type", PyStr "bearer")])
              "s3cr3t" Examples.member [] eq_refl eq_refl)
    as (logged_in & logged_out & Hin & Hout & _ & _ & Hkept & Hnext).
  exists logged_in, logged_out.
  split; [exact Hin |]. split; [exact Hout |]. split; [exact Hkept |].
  apply (Hnext Examples.mast
           {| COOKIES := sent (receive (receive [] logged_in) logged_out);
              GET := ∅ |} []).
  reflexivity.
Defined.

(** ** Who is anonymous, and what resolution leaves untouched *)

Lemma is_anonymous_with_cookie (E : externals) request cookie w :
  COOKIES request !! "ASB-AUTH" = Some cookie ->
  is_anonymous (fst (user_info_response E request w))
  = match answered_record (info_answer E w cookie) with
    | Some user => is_anonymous (Returned user)
    | None => false
    end.
Proof.
  intros Hsome. rewrite (resolve_with_cookie E _ _ w Hsome). cbn.
  destruct (info_answer E w cookie) as [x | r]; [reflexivity |].
  cbn. now destruct (resp_json r).
Qed.

Lemma is_anonymous_record user :
  is_anonymous (Returned user) = true <->
  exists v, anon_of user = Some v /\ py_truthy v = true.
Proof.
  cbn. destruct (anon_of user) as [v |].
  - split; [intros Hv; now exists v | now intros (v' & [= <-] & Hv)].
  - split; [discriminate | now intros (v' & [=] & _)].
Qed.

(** C7, as the specification words it, fails: a provider that rejects
    the credential ["expired"] with a 401 whose body is not JSON makes
    identity resolution raise; the caller is not resolved to a record
    with a true ['anon']. *)
Lemma rejected_credential_is_not_anonymous :
  ~ anonymous_iff_absent_or_rejected
      Examples.mast (Examples.with_cookie "expired") [].
Proof.
  unfold anonymous_iff_absent_or_rejected. intros [_ Hback].
  assert (Hrej : COOKIES (Examples.with_cookie "expired") !! "ASB-AUTH" = None
                 \/ exists cookie,
                      COOKIES (Examples.with_cookie "expired") !! "ASB-AUTH"
                        = Some cookie
                      /\ provider_rejects (info_answer Examples.mast [] cookie)
                         = true).
  { right. exists "expired". split; reflexivity. }
  specialize (Hback Hrej). vm_compute in Hback. discriminate.
Qed.

(** C7, amended.  The caller is anonymous exactly when the request has no
    ['ASB-AUTH'] cookie or the provider's answer decodes to a record
    whose ['anon'] entry is true; the status of the answer is not
    looked at.  Nothing else plays a part: two runs that agree on the
    cookie and on the record the provider's answer decodes to agree on
    whether the caller is anonymous. *)
Theorem anonymous_iff_no_cookie_or_flagged
    (E : externals) (request : HttpRequest) (w : list event) :
  anonymous_iff_absent_or_flagged E request w
  /\ forall E' request' w',
       COOKIES request' !! "ASB-AUTH" = COOKIES request !! "ASB-AUTH" ->
       (forall cookie,
          COOKIES request !! "ASB-AUTH" = Some cookie ->
          answered_record (info_answer E' w' cookie)
          = answered_record (info_answer E w cookie)) ->
       is_anonymous (fst (user_info_response E' request' w'))
       = is_anonymous (fst (user_info_response E request w)).
Proof.
  split.
  - unfold anonymous_iff_absent_or_flagged.
    destruct (COOKIES request !! "ASB-AUTH") as [cookie |] eqn:Hc.
    + rewrite (is_anonymous_with_cookie E _ _ w Hc). split.
      * intros Hanon. right. exists cookie.
        destruct (answered_record (info_answer E w cookie)) as [user |];
          [| discriminate].
        apply is_anonymous_record in Hanon as (v & Hv & Ht).
        now exists user, v.
      * intros [[=] | (cookie' & user & v & [= <-] & Hrec & Hv & Ht)].
        rewrite Hrec. apply is_anonymous_record. now exists v.
    + rewrite (resolve_without_cookie E _ w Hc). split; [now left | reflexivity].
  - intros E' request' w' Hsame Hrec.
    destruct (COOKIES request !! "ASB-AUTH") as [cookie |] eqn:Hc.
    + rewrite (is_anonymous_with_cookie E' _ _ w' Hsame),
        (is_anonymous_with_cookie E _ _ w Hc), (Hrec cookie eq_refl).
      reflexivity.
    + now rewrite (resolve_without_cookie E' _ w' Hsame),
        (resolve_without_cookie E _ w Hc).
Qed.

Lemma anonymous_iff_no_cookie_or_flagged_witness :
  is_anonymous (fst (user_info_response Examples.mast
                       (Examples.with_cookie "unknown") [])) = true.
Proof.
  destruct (anonymous_iff_no_cookie_or_flagged
              Examples.mast (Examples.with_cookie "unknown") [])
    as [[_ Hback] _].
  apply Hback. right.
  exists "unknown", anonymous_user, (PyBool true).
  repeat split.
Defined.

(** C8. Identity resolution touches no cookie.  Whether the credential is
    present or not, the wrapper made by [auth_info] either raises before
    there is any response, or hands the request it received to the
    wrapped function and returns that function's result as it is: the
    cookies on the response are those the wrapped function put there.
    The only calls resolution adds to the trace are GETs. *)
Theorem auth_info_leaves_cookies_alone
    (E : externals) (fn : HttpRequest -> pyval -> kwargs -> M HttpResponse)
    (request : HttpRequest) (kw : kwargs) (w : list event) :
  (exists w',
     Forall (fun e => exists url hdrs, e = RequestsGet url hdrs) (added w w')
     /\ ((exists e,
            user_info_response E request w = (Raised e, w')
            /\ auth_info E fn request kw w = (Raised e, w')
            /\ response_cookies (auth_info E fn request kw w) = None)
         \/ (exists user,
               user_info_response E request w = (Returned user, w')
               /\ auth_info E fn request kw w = fn request user kw w'
               /\ response_cookies (auth_info E fn request kw w)
                  = response_cookies (fn request user kw w')))).
Proof.
  rewrite auth_info_unfold.
  destruct (COOKIES request !! "ASB-AUTH") as [cookie |] eqn:Hc.
  - rewrite (resolve_with_cookie E _ _ w Hc).
    exists (app w [info_call cookie]). split.
    + unfold added. rewrite drop_app_length.
      constructor; [| constructor]. unfold info_call. eauto.
    + destruct (info_answer E w cookie) as [x | r].
      * left. exists x. auto.
      * destruct (resp_json r) as [user |].
        -- right. exists user. auto.
        -- left. eexists. auto.
  - rewrite (resolve_without_cookie E _ w Hc).
    exists w. split.
    + unfold added. rewrite drop_all. constructor.
    + right. exists anonymous_user. auto.
Qed.

(** ** Further properties of the decorators *)

(** X1. With a session cookie, when the GET to the provider raises, or
    its answer is not a JSON document, every function decorated with
    [auth_info] raises that exception after the one GET, whatever keyword
    arguments [user_info] was called with (none of them is named
    ['request'], a call Python refuses before the cookie is read): the
    wrapped function does not run, and the caller is not resolved to the
    anonymous record.  The gate and [some_webpage], both made with
    [auth_info], do the same. *)
Theorem auth_info_provider_failure_propagates
    (E : externals) (request : HttpRequest) (w : list event)
    (cookie : string) (e : exn) :
  COOKIES request !! "ASB-AUTH" = Some cookie ->
  (info_answer E w cookie = inl e
   \/ exists r, info_answer E w cookie = inr r /\ resp_json r = None
                /\ e = ValueError "Expecting value") ->
  (forall fn (kw : kwargs),
     kw !! "request" = None ->
     auth_info E fn request kw w = (Raised e, app w [info_call cookie]))
  /\ (forall fn (kw : kwargs),
        kw !! "request" = None ->
        auth_required E fn request kw w = (Raised e, app w [info_call cookie]))
  /\ (forall kw : kwargs,
        kw !! "request" = None ->
        some_webpage E request kw w = (Raised e, app w [info_call cookie])).
Proof.
  intros Hsome Hfail.
  assert (Hres : user_info_response E request w
                 = (Raised e, app w [info_call cookie])).
  { rewrite (resolve_with_cookie E _ _ w Hsome).
    destruct Hfail as [-> | (r & -> & -> & ->)]; reflexivity. }
  assert (Hall : forall fn kw,
             auth_info E fn request kw w = (Raised e, app w [info_call cookie])).
  { intros fn kw. now rewrite auth_info_unfold, Hres. }
  split; [intros fn kw _; apply Hall |]. split.
  - intros fn kw _. apply Hall.
  - intros kw _. apply Hall.
Qed.

Lemma auth_info_provider_failure_propagates_witness :
  auth_required Cases.down Examples.home Examples.member ∅ []
  = (Raised (ExternalError "ConnectionError"), [info_call "s3cr3t"]).
Proof.
  destruct (auth_info_provider_failure_propagates
              Cases.down Examples.member [] "s3cr3t"
              (ExternalError "ConnectionError"))
    as (_ & Hgate & _).
  - reflexivity.
  - left. reflexivity.
  - apply Hgate. reflexivity.
Defined.

(** X2. Identity resolution depends on the request through its
    ['ASB-AUTH'] cookie only, and on the provider's answer through its
    decoded body only: other cookies, the query parameters and the status
    of the answer change neither the resolved record nor the trace. *)
Theorem resolution_depends_on_cookie_and_body
    (E E' : externals) (request request' : HttpRequest) (w : list event) :
  COOKIES request' !! "ASB-AUTH" = COOKIES request !! "ASB-AUTH" ->
  (forall cookie,
     COOKIES request !! "ASB-AUTH" = Some cookie ->
     exists r r', info_answer E w cookie = inr r
                  /\ info_answer E' w cookie = inr r'
                  /\ resp_json r' = resp_json r) ->
  user_info_response E' request' w = user_info_response E request w.
Proof.
  intros Hsame Hbody.
  destruct (COOKIES request !! "ASB-AUTH") as [cookie |] eqn:Hc.
  - destruct (Hbody cookie eq_refl) as (r & r' & Hr & Hr' & Hjson).
    rewrite (resolve_with_cookie E' _ _ w Hsame),
      (resolve_with_cookie E _ _ w Hc), Hr, Hr', Hjson.
    reflexivity.
  - now rewrite (resolve_without_cookie E' _ w Hsame),
      (resolve_without_cookie E _ w Hc).
Qed.

Lemma resolution_depends_on_cookie_and_body_witness :
  user_info_response Cases.forbidding Cases.busy_member []
  = user_info_response Examples.mast Examples.member [].
Proof.
  apply (resolution_depends_on_cookie_and_body
           Examples.mast Cases.forbidding Examples.member Cases.busy_member []).
  - reflexivity.
  - intros cookie [= <-]. eexists. eexists. repeat split.
Defined.

(** X3. The gate tests the ['anon'] entry for its truth value, not for
    being [True] or [False]: with any entry that is false for [if]
    ([None], [0], the empty string, list or dict) the handler runs as for an
    authenticated caller, and with any other entry the caller takes the
    anonymous branch, which ends in the [NameError]. *)
Theorem auth_required_decides_by_truth_value
    (E : externals) (fn : HttpRequest -> pyval -> M HttpResponse)
    (request : HttpRequest) (w w' : list event) (user v : pyval) :
  user_info_response E request w = (Returned user, w') ->
  anon_of user = Some v ->
  auth_required E fn request ∅ w
  = if py_truthy v then (Raised (NameError "os"), w') else fn request user w'.
Proof.
  intros Hres Hanon. destruct (py_truthy v) eqn:Hv.
  - now apply auth_required_anonymous_raises with (user := user) (v := v).
  - now apply auth_required_falsy with (v := v).
Qed.

Lemma auth_required_decides_by_truth_value_witness :
  auth_required Cases.loose Examples.home Examples.member ∅ []
  = Examples.home Examples.member
      (PyDict [("ezid", PyStr "jdoe"); ("anon", PyNone)]) [info_call "s3cr3t"].
Proof.
  apply (auth_required_decides_by_truth_value
           Cases.loose Examples.home Examples.member [] [info_call "s3cr3t"]
           (PyDict [("ezid", PyStr "jdoe"); ("anon", PyNone)]) PyNone);
    reflexivity.
Defined.

(** X4. A view behind [auth_required] that is called with keyword
    arguments (captured URL parameters), none of them named ['request'],
    raises [TypeError] once the identity is resolved, for an anonymous and
    for an authenticated caller alike: [check_auth] accepts [request] and
    [user] only.  The handler does not run.  (A keyword named ['request']
    is refused by Python at the call of [user_info] itself, before the
    cookie is read.) *)
Theorem auth_required_refuses_keyword_arguments
    (E : externals) (request : HttpRequest) (kw : kwargs)
    (w w' : list event) (user : pyval) :
  kw <> ∅ ->
  kw !! "request" = None ->
  user_info_response E request w = (Returned user, w') ->
  exists msg, forall fn,
    auth_required E fn request kw w = (Raised (TypeError msg), w').
Proof.
  intros Hkw _ Hres.
  destruct (map_to_list kw) as [| [k x] rest] eqn:Hl.
  - apply map_to_list_empty_iff in Hl. contradiction.
  - eexists. intros fn. unfold auth_required, auth_required_in.
    rewrite auth_info_unfold, Hres, Hl. reflexivity.
Qed.

Lemma auth_required_refuses_keyword_arguments_witness :
  exists msg, forall fn,
    auth_required Examples.mast fn Examples.member {[ "pk" := PyStr "7" ]} []
    = (Raised (TypeError msg), [info_call "s3cr3t"]).
Proof.
  apply (auth_required_refuses_keyword_arguments
           Examples.mast Examples.member {[ "pk" := PyStr "7" ]}
           [] [info_call "s3cr3t"]
           (PyDict [("ezid", PyStr "jdoe"); ("anon", PyBool false)])).
  - intros Hempty.
    apply (f_equal (fun m : kwargs => m !! "pk")) in Hempty.
    rewrite lookup_singleton_eq, lookup_empty in Hempty. discriminate.
  - reflexivity.
  - reflexivity.
Defined.

(** X5. Whatever a view behind [auth_required] returns was returned by
    its handler, and the handler ran on a request that carries the session
    cookie, with the record the provider's answer decodes to, whose
    ['anon'] entry is false for [if].  No other path of the gate returns
    a response. *)
Theorem auth_required_response_is_the_handlers
    (E : externals) (fn : HttpRequest -> pyval -> M HttpResponse)
    (request : HttpRequest) (kw : kwargs) (w w' : list event)
    (response : HttpResponse) :
  auth_required E fn request kw w = (Returned response, w') ->
  kw = ∅
  /\ exists cookie r user v,
       COOKIES request !! "ASB-AUTH" = Some cookie
       /\ info_answer E w cookie = inr r
       /\ resp_json r = Some user
       /\ anon_of user = Some v /\ py_truthy v = false
       /\ fn request user (app w [info_call cookie]) = (Returned response, w').
Proof.
  unfold auth_required, auth_required_in. rewrite auth_info_unfold.
  destruct (COOKIES request !! "ASB-AUTH") as [cookie |] eqn:Hc.
  - rewrite (resolve_with_cookie E _ _ w Hc).
    destruct (info_answer E w cookie) as [x | r] eqn:Hans; [discriminate |].
    destruct (resp_json r) as [user |] eqn:Hjson; [| discriminate].
    destruct (map_to_list kw) as [| [k x] rest] eqn:Hl; [| discriminate].
    apply map_to_list_empty_iff in Hl.
    destruct (anon_of user) as [v |] eqn:Hanon.
    + destruct (py_truthy v) eqn:Hv.
      * rewrite (check_auth_truthy E _ _ _ _ _ _ Hanon Hv). discriminate.
      * rewrite (check_auth_falsy E _ _ _ _ _ _ Hanon Hv). intros Hrun.
        split; [exact Hl |]. exists cookie, r, user, v. auto 10.
    + destruct (check_auth_no_anon E views_names fn request user
                  (app w [info_call cookie]) Hanon) as (e & _ & ->).
      discriminate.
  - rewrite (resolve_without_cookie E _ w Hc).
    destruct (map_to_list kw) as [| [k x] rest]; [| discriminate].
    rewrite (check_auth_truthy E _ _ _ anonymous_user (PyBool true) w);
      [discriminate | reflexivity ..].
Qed.

Lemma auth_required_response_is_the_handlers_witness :
  exists cookie r user v,
    COOKIES Examples.member !! "ASB-AUTH" = Some cookie
    /\ info_answer Examples.mast [] cookie = inr r
    /\ resp_json r = Some user
    /\ anon_of user = Some v /\ py_truthy v = false
    /\ Examples.home Examples.member user (app [] [info_call cookie])
       = (Returned {| status_code := 200; location := None;
                      content := "home"; cookies := ∅ |},
          [info_call "s3cr3t"]).
Proof.
  assert (Hrun : auth_required Examples.mast Examples.home Examples.member ∅ []
                 = (Returned {| status_code := 200; location := None;
                                content := "home"; cookies := ∅ |},
                    [info_call "s3cr3t"]))
    by reflexivity.
  apply (auth_required_response_is_the_handlers
           Examples.mast Examples.home Examples.member ∅
           [] [info_call "s3cr3t"] _ Hrun).
Defined.

(** X6. [login] returns a response only to a request without keyword
    arguments whose session cookie the provider answers with a record
    that has a false ['anon']; that response is the plain redirect to
    ["/"], with no cookie set on it.  In particular [login] never sends a
    visitor to the provider. *)
Theorem login_returns_only_the_home_redirect
    (E : externals) (request : HttpRequest) (kw : kwargs) (w w' : list event)
    (response : HttpResponse) :
  login E request kw w = (Returned response, w') ->
  response = redirect "/"
  /\ cookies response = ∅
  /\ kw = ∅
  /\ exists cookie,
       COOKIES request !! "ASB-AUTH" = Some cookie
       /\ w' = app w [info_call cookie]
       /\ is_anonymous (fst (user_info_response E request w)) = false.
Proof.
  unfold login, auth_required, auth_required_in. rewrite auth_info_unfold.
  destruct (COOKIES request !! "ASB-AUTH") as [cookie |] eqn:Hc.
  - rewrite (resolve_with_cookie E _ _ w Hc).
    destruct (info_answer E w cookie) as [x | r]; [discriminate |].
    destruct (resp_json r) as [user |]; [| discriminate].
    destruct (map_to_list kw) as [| [k x] rest] eqn:Hl; [| discriminate].
    apply map_to_list_empty_iff in Hl.
    destruct (anon_of user) as [v |] eqn:Hanon.
    + destruct (py_truthy v) eqn:Hv.
      * rewrite (check_auth_truthy E _ _ _ _ _ _ Hanon Hv). discriminate.
      * rewrite (check_auth_falsy E _ _ _ _ _ _ Hanon Hv).
        unfold login_view, ret. intros [= <- <-].
        split; [reflexivity |]. split; [reflexivity |]. split; [exact Hl |].
        exists cookie. split; [reflexivity |]. split; [reflexivity |].
        cbn. now rewrite Hanon, Hv.
    + destruct (check_auth_no_anon E views_names login_view request user
                  (app w [info_call cookie]) Hanon) as (e & _ & ->).
      discriminate.
  - rewrite (resolve_without_cookie E _ w Hc).
    destruct (map_to_list kw) as [| [k x] rest]; [| discriminate].
    rewrite (check_auth_truthy E _ _ _ anonymous_user (PyBool true) w);
      [discriminate | reflexivity ..].
Qed.

Lemma login_returns_only_the_home_redirect_witness :
  redirect "/" = redirect "/"
  /\ cookies (redirect "/") = ∅
  /\ (∅ : kwargs) = ∅
  /\ exists cookie,
       COOKIES Examples.member !! "ASB-AUTH" = Some cookie
       /\ [info_call "s3cr3t"] = app [] [info_call cookie]
       /\ is_anonymous (fst (user_info_response Examples.mast Examples.member []))
          = false.
Proof.
  apply (login_returns_only_the_home_redirect
           Examples.mast Examples.member ∅ [] [info_call "s3cr3t"]
           (redirect "/")).
  reflexivity.
Defined.

(** ** Further properties of the views *)

Lemma authorize_with_access_token (E : externals) request w token v :
  authorize_access_token E w request [("Accept", "application/json")] = inr token ->
  access_token_of token = Some v ->
  authorize E request w
  = (Returned (set_cookie (redirect "/") "ASB-AUTH" (py_str E v)
                          None None (Some "myapp.stsci.edu") true true),
     app w [AuthorizeAccessToken request [("Accept", "application/json")]]).
Proof.
  intros Hexchange Htoken. unfold authorize, bind, call. rewrite Hexchange.
  destruct token; cbn in Htoken; try discriminate.
  cbn. now rewrite Htoken.
Qed.

Lemma authorize_without_access_token (E : externals) request w token :
  authorize_access_token E w request [("Accept", "application/json")] = inr token ->
  access_token_of token = None ->
  exists e,
    (e = KeyError "access_token" \/ exists msg, e = TypeError msg)
    /\ authorize E request w
       = (Raised e,
          app w [AuthorizeAccessToken request [("Accept", "application/json")]]).
Proof.
  intros Hexchange Htoken. unfold authorize, bind, call. rewrite Hexchange.
  destruct token; cbn in Htoken |- *;
    try (eexists; split; [right; eexists; reflexivity | reflexivity]).
  rewrite Htoken. eexists. split; [now left | reflexivity].
Qed.

Lemma authorize_exchange_raises (E : externals) request w x :
  authorize_access_token E w request [("Accept", "application/json")] = inl x ->
  authorize E request w
  = (Raised x,
     app w [AuthorizeAccessToken request [("Accept", "application/json")]]).
Proof.
  intros Hexchange. unfold authorize, bind, call. now rewrite Hexchange.
Qed.

(** X7. [authorize] makes one call whatever happens, the token exchange,
    and none to [/info].  It returns a response, and so sets the session
    cookie, exactly when the exchange returns a token that has an
    ['access_token'] entry.  When the exchange raises, [authorize] raises
    the same exception; when the token has no such entry it raises
    [KeyError('access_token')] (or [TypeError] when the token is not a
    [dict]).  In neither case is there a response to carry a cookie. *)
Theorem authorize_responds_iff_token_has_access_token
    (E : externals) (request : HttpRequest) (w : list event) :
  snd (authorize E request w)
  = app w [AuthorizeAccessToken request [("Accept", "application/json")]]
  /\ ((exists response, fst (authorize E request w) = Returned response)
      <-> exists token v,
            authorize_access_token E w request [("Accept", "application/json")]
            = inr token
            /\ access_token_of token = Some v)
  /\ (forall x,
        authorize_access_token E w request [("Accept", "application/json")] = inl x ->
        fst (authorize E request w) = Raised x)
  /\ (forall token,
        authorize_access_token E w request [("Accept", "application/json")]
        = inr token ->
        access_token_of token = None ->
        exists e, fst (authorize E request w) = Raised e
                  /\ (e = KeyError "access_token" \/ exists msg, e = TypeError msg)).
Proof.
  destruct (authorize_access_token E w request [("Accept", "application/json")])
    as [x | token] eqn:Hexchange.
  - rewrite (authorize_exchange_raises E _ _ _ Hexchange). cbn.
    split; [reflexivity |]. split; [| split].
    + split; [intros [response [=]] | intros (token & v & [=] & _)].
    + now intros x' [= <-].
    + intros token [=].
  - destruct (access_token_of token) as [v |] eqn:Htoken.
    + rewrite (authorize_with_access_token E _ _ _ _ Hexchange Htoken). cbn.
      split; [reflexivity |]. split; [| split].
      * split; [intros _; now exists token, v | intros _; eexists; reflexivity].
      * intros x [=].
      * intros token' [= <-]. rewrite Htoken. discriminate.
    + destruct (authorize_without_access_token E _ _ _ Hexchange Htoken)
        as (e & Hkind & ->). cbn.
      split; [reflexivity |]. split; [| split].
      * split; [intros [response [=]] |].
        intros (token' & v & [= <-] & Hv). rewrite Htoken in Hv. discriminate.
      * intros x [=].
      * intros token' [= <-] _. now exists e.
Qed.

Lemma authorize_responds_iff_token_has_access_token_witness :
  fst (authorize Cases.down Examples.visitor [])
  = Raised (ExternalError "mismatching_state").
Proof.
  destruct (authorize_responds_iff_token_has_access_token
              Cases.down Examples.visitor [])
    as (_ & _ & Hraise & _).
  apply Hraise. reflexivity.
Defined.

(** X8. The credential [authorize] stores is the one identity resolution
    presents: when the exchange returns a token with an ['access_token']
    entry, the cookie ['ASB-AUTH'] on the response holds [str] of that
    entry (the string itself, and ["None"] for a null entry), and a later
    request that carries the cookie with that value makes [user_info] send
    its one GET with [Authorization: token] followed by that same value. *)
Theorem authorize_then_user_info_forwards_token
    (E : externals) (request : HttpRequest) (w : list event) (token v : pyval) :
  authorize_access_token E w request [("Accept", "application/json")] = inr token ->
  access_token_of token = Some v ->
  exists response morsel,
    fst (authorize E request w) = Returned response
    /\ cookies response !! "ASB-AUTH" = Some morsel
    /\ value morsel = py_str E v
    /\ (forall s, v = PyStr s -> value morsel = s)
    /\ (v = PyNone -> value morsel = "None")
    /\ forall E' next w0,
         COOKIES next !! "ASB-AUTH" = Some (value morsel) ->
         snd (user_info_response E' next w0)
         = app w0 [RequestsGet "https://auth.mast.stsci.edu/info"
                     [("Accept", "application/json");
                      ("Authorization", "token " ++ py_str E v)]].
Proof.
  intros Hexchange Htoken.
  rewrite (authorize_with_access_token E _ _ _ _ Hexchange Htoken).
  eexists. eexists. split; [reflexivity |].
  cbn. rewrite lookup_insert_eq. split; [reflexivity |]. cbn.
  split; [reflexivity |]. split; [now intros s -> |]. split; [now intros -> |].
  intros E' next w0 Hnext.
  now rewrite (resolve_with_cookie E' _ _ w0 Hnext).
Qed.

Lemma authorize_then_user_info_forwards_token_witness :
  exists response morsel,
    fst (authorize Cases.loose Examples.visitor []) = Returned response
    /\ cookies response !! "ASB-AUTH" = Some morsel
    /\ value morsel = "None"
    /\ snd (user_info_response Examples.mast (Examples.with_cookie "None") [])
       = [info_call "None"].
Proof.
  destruct (authorize_then_user_info_forwards_token
              Cases.loose Examples.visitor []
              (PyDict [("access_token", PyNone)]) PyNone eq_refl eq_refl)
    as (response & morsel & Hrun & Hcookie & Hvalue & _ & _ & Hnext).
  exists response, morsel.
  split; [exact Hrun |]. split; [exact Hcookie |]. split; [exact Hvalue |].
  apply (Hnext Examples.mast (Examples.with_cookie "None") []).
  rewrite Hvalue. reflexivity.
Defined.

(** X9. [some_webpage] serves a visitor without session cookie: it makes
    no call to the provider and no redirect to the login, and renders
    ['some_webpage.html'] once, with the anonymous record as [user]; its
    result is what [render] returns or raises. *)
Theorem some_webpage_renders_for_a_visitor
    (E : externals) (request : HttpRequest) (w : list event) :
  COOKIES request !! "ASB-AUTH" = None ->
  some_webpage E request ∅ w
  = (match render E w request "some_webpage.html" anonymous_user with
     | inr response => Returned response
     | inl x => Raised x
     end,
     app w [Render request "some_webpage.html" anonymous_user]).
Proof.
  intros Hnone. unfold some_webpage.
  rewrite auth_info_unfold, (resolve_without_cookie E _ w Hnone),
    map_to_list_empty.
  unfold call. now destruct (render E w request _ _).
Qed.

Lemma some_webpage_renders_for_a_visitor_witness :
  some_webpage Examples.mast Examples.visitor ∅ []
  = (Returned {| status_code := 200; location := None;
                 content := "some_webpage.html"; cookies := ∅ |},
     [Render Examples.visitor "some_webpage.html" anonymous_user]).
Proof.
  apply (some_webpage_renders_for_a_visitor Examples.mast Examples.visitor []).
  reflexivity.
Defined.

(** X10. With a session cookie whose answer decodes as JSON,
    [some_webpage] makes the one GET and then renders the template once
    with the decoded value as [user], whatever that value is: unlike the
    gate it never reads ['anon'], so a record without that key, or a value
    that is not a record, is rendered and raises nothing. *)
Theorem some_webpage_renders_any_decoded_record
    (E : externals) (request : HttpRequest) (w : list event)
    (cookie : string) (r : Response) (user : pyval) :
  COOKIES request !! "ASB-AUTH" = Some cookie ->
  info_answer E w cookie = inr r ->
  resp_json r = Some user ->
  some_webpage E request ∅ w
  = (match render E (app w [info_call cookie]) request "some_webpage.html" user with
     | inr response => Returned response
     | inl x => Raised x
     end,
     app w [info_call cookie; Render request "some_webpage.html" user]).
Proof.
  intros Hsome Hans Hjson. unfold some_webpage.
  rewrite auth_info_unfold,
    (resolve_with_cookie_record E _ _ w _ _ Hsome Hans Hjson),
    map_to_list_empty.
  unfold call. rewrite <- app_assoc. cbn.
  now destruct (render E _ request _ _).
Qed.

Lemma some_webpage_renders_any_decoded_record_witness :
  some_webpage Examples.mast (Examples.with_cookie "odd") ∅ []
  = (Returned {| status_code := 200; location := None;
                 content := "some_webpage.html"; cookies := ∅ |},
     [info_call "odd";
      Render (Examples.with_cookie "odd") "some_webpage.html"
             (PyDict [("ezid", PyStr "jdoe")])]).
Proof.
  apply (some_webpage_renders_any_decoded_record
           Examples.mast (Examples.with_cookie "odd") [] "odd"
           {| resp_status := 200;
              resp_json := Some (PyDict [("ezid", PyStr "jdoe")]) |});
    reflexivity.
Defined.
